(** * TraderOne: the quoting strategy of [src/TraderOne.py]

    A shallow embedding of the [AutoTrader] callback object and the
    properties of its quoting / inventory state machine.

    Python integers are unbounded, so every [int] is a [Z]; the two
    [set()] attributes are [gset Z]; [itertools.count(1)] is the next
    value it will yield.  The callbacks mutate [self] and call the host
    ([send_insert_order], [send_cancel_order]), and two of them can
    raise, so they are written in a small state / output / exception
    monad. *)

From Stdlib Require Import ZArith List Lia.
From Stdlib Require Import Strings.Byte.
From stdpp Require Import base decidable numbers gmap sets.
Import ListNotations.

#[local] Open Scope Z_scope.
(* stdpp's set_solver clears hypotheses it has already consumed. *)
#[local] Set Warnings "-clear-no-such-hyp".

(** ** Constants *)

Definition LOT_SIZE : Z := 10.
Definition POSITION_LIMIT : Z := 100.

(** Modelled from the spec: the tracked instrument.  [Instrument],
    [Side] and [Lifespan] are enumerations of the [ready_trader_go]
    host package, which is not part of [src/].  The handler only
    compares the incoming instrument number with [Instrument.FUTURE],
    and nothing proved below depends on which number that is. *)
Definition FUTURE : Z := 0.

Inductive Side : Type := SELL | BUY.
Inductive Lifespan : Type := FILL_AND_KILL | GOOD_FOR_DAY.

(** ** Strategy state: the attributes set by [__init__] *)

Record state : Type := mkState {
  order_ids : Z;          (* next value of [itertools.count(1)] *)
  bids : gset Z;
  asks : gset Z;
  ask_id : Z;
  ask_price : Z;
  bid_id : Z;
  bid_price : Z;
  position : Z
}.

Definition init : state :=
  {| order_ids := 1; bids := ∅; asks := ∅;
     ask_id := 0; ask_price := 0; bid_id := 0; bid_price := 0;
     position := 0 |}.

Definition set_order_ids (v : Z) (s : state) : state :=
  mkState v (bids s) (asks s) (ask_id s) (ask_price s) (bid_id s) (bid_price s) (position s).
Definition set_bids (v : gset Z) (s : state) : state :=
  mkState (order_ids s) v (asks s) (ask_id s) (ask_price s) (bid_id s) (bid_price s) (position s).
Definition set_asks (v : gset Z) (s : state) : state :=
  mkState (order_ids s) (bids s) v (ask_id s) (ask_price s) (bid_id s) (bid_price s) (position s).
Definition set_ask_id (v : Z) (s : state) : state :=
  mkState (order_ids s) (bids s) (asks s) v (ask_price s) (bid_id s) (bid_price s) (position s).
Definition set_ask_price (v : Z) (s : state) : state :=
  mkState (order_ids s) (bids s) (asks s) (ask_id s) v (bid_id s) (bid_price s) (position s).
Definition set_bid_id (v : Z) (s : state) : state :=
  mkState (order_ids s) (bids s) (asks s) (ask_id s) (ask_price s) v (bid_price s) (position s).
Definition set_bid_price (v : Z) (s : state) : state :=
  mkState (order_ids s) (bids s) (asks s) (ask_id s) (ask_price s) (bid_id s) v (position s).
Definition set_position (v : Z) (s : state) : state :=
  mkState (order_ids s) (bids s) (asks s) (ask_id s) (ask_price s) (bid_id s) (bid_price s) v.

(** ** Commands sent to the host, and exceptions *)

Inductive command : Type :=
| send_cancel_order (client_order_id : Z)
| send_insert_order (client_order_id : Z) (side : Side) (price volume : Z)
                    (lifespan : Lifespan).

Inductive exn : Type := IndexError | UnicodeDecodeError.

(** A callback either returns or raises; in both cases the mutations of
    [self] and the commands already sent stay. *)
Inductive outcome (A : Type) : Type :=
| Returned (a : A) (s : state) (out : list command)
| Raised (e : exn) (s : state) (out : list command).
Arguments Returned {A} a s out.
Arguments Raised {A} e s out.

Definition M (A : Type) : Type := state → outcome A.

Definition ret {A} (a : A) : M A := λ s, Returned a s [].

Definition bind {A B} (m : M A) (k : A → M B) : M B := λ s,
  match m s with
  | Returned a s1 o1 =>
      match k a s1 with
      | Returned b s2 o2 => Returned b s2 (o1 ++ o2)
      | Raised e s2 o2 => Raised e s2 (o1 ++ o2)
      end
  | Raised e s1 o1 => Raised e s1 o1
  end.

Definition raise {A} (e : exn) : M A := λ s, Raised e s [].
Definition get : M state := λ s, Returned s s [].
Definition modify (f : state → state) : M unit := λ s, Returned tt (f s) [].
Definition send (c : command) : M unit := λ s, Returned tt s [c].

Declare Scope trader_scope.
Delimit Scope trader_scope with trader.
Notation "x <- m ;; k" := (bind m (λ x, k))
  (at level 100, m at next level, right associativity) : trader_scope.
Notation "m ;;; k" := (bind m (λ _, k))
  (at level 100, right associativity) : trader_scope.
#[local] Open Scope trader_scope.

(** [next(self.order_ids)]: yields the counter and advances it. *)
Definition next_order_id : M Z :=
  s <- get ;;
  modify (set_order_ids (order_ids s + 1)) ;;;
  ret (order_ids s).

(** [xs[0]] on a Python list. *)
Definition index0 (xs : list Z) : M Z :=
  match xs with
  | [] => raise IndexError
  | x :: _ => ret x
  end.

(** ** [bytes.decode()]

    [error_message.decode()] uses the strict UTF-8 codec: it raises
    [UnicodeDecodeError] unless the bytes are well-formed UTF-8 (no
    overlong forms, no surrogates, nothing above U+10FFFF).  The decoded
    text is only handed to the logger, so the model keeps the check and
    drops the text. *)

Definition in_range (lo hi b : N) : bool := ((lo <=? b) && (b <=? hi))%N.
Definition continuation (b : N) : bool := in_range 128 191 b.

Fixpoint utf8_well_formed (bs : list N) : bool :=
  match bs with
  | [] => true
  | b0 :: r0 =>
      if (b0 <=? 127)%N then utf8_well_formed r0
      else match r0 with
      | [] => false
      | b1 :: r1 =>
          if in_range 194 223 b0 then continuation b1 && utf8_well_formed r1
          else match r1 with
          | [] => false
          | b2 :: r2 =>
              if in_range 224 239 b0 then
                (if (b0 =? 224)%N then in_range 160 191 b1
                 else if (b0 =? 237)%N then in_range 128 159 b1
                 else continuation b1)
                && continuation b2 && utf8_well_formed r2
              else match r2 with
              | [] => false
              | b3 :: r3 =>
                  in_range 240 244 b0
                  && (if (b0 =? 240)%N then in_range 144 191 b1
                      else if (b0 =? 244)%N then in_range 128 143 b1
                      else continuation b1)
                  && continuation b2 && continuation b3 && utf8_well_formed r3
              end
          end
      end
  end.

Definition decode (error_message : list byte) : M unit :=
  if utf8_well_formed (map Byte.to_N error_message) then ret tt
  else raise UnicodeDecodeError.

(** ** The callbacks

    The [self.logger] calls neither touch the strategy state nor send
    anything to the host, and the logging package swallows its own
    formatting errors; only the argument they evaluate eagerly
    ([error_message.decode()]) is modelled. *)

Definition on_order_status_message
    (client_order_id fill_volume remaining_volume fees : Z) : M unit :=
  if decide (remaining_volume = 0) then
    s <- get ;;
    (if decide (client_order_id = bid_id s) then modify (set_bid_id 0)
     else if decide (client_order_id = ask_id s) then modify (set_ask_id 0)
     else ret tt) ;;;
    modify (λ s, set_bids (bids s ∖ {[client_order_id]}) s) ;;;
    modify (λ s, set_asks (asks s ∖ {[client_order_id]}) s)
  else ret tt.

Definition on_error_message (client_order_id : Z) (error_message : list byte) : M unit :=
  decode error_message ;;;
  s <- get ;;
  if bool_decide (client_order_id ≠ 0)
     && (bool_decide (client_order_id ∈ bids s) || bool_decide (client_order_id ∈ asks s))
  then on_order_status_message client_order_id 0 0 0
  else ret tt.

Definition on_hedge_filled_message (client_order_id price volume : Z) : M unit :=
  ret tt.

Definition on_order_filled_message (client_order_id price volume : Z) : M unit :=
  s <- get ;;
  if decide (client_order_id ∈ bids s) then modify (set_position (position s + volume))
  else if decide (client_order_id ∈ asks s) then modify (set_position (position s - volume))
  else ret tt.

Definition on_trade_ticks_message (instrument sequence_number : Z)
    (ask_prices ask_volumes bid_prices bid_volumes : list Z) : M unit :=
  ret tt.

(** Lines 79-90: the mid price and the quotes derived from it, as the
    pair [(new_bid_price, new_ask_price)]. *)
Definition mid_price (best_bid best_ask : Z) : Z := (best_bid + best_ask) / 2.

Definition new_prices (pos best_bid best_ask : Z) : Z * Z :=
  if decide (pos > 0) then (mid_price best_bid best_ask - 10, mid_price best_bid best_ask)
  else if decide (pos < 0) then (mid_price best_bid best_ask, mid_price best_bid best_ask + 10)
  else (best_bid, best_ask).

(** Lines 93-98: cancel the resting orders whose price is stale. *)
Definition cancel_stale_bid (new_bid_price : Z) : M unit :=
  s <- get ;;
  if bool_decide (bid_id s ≠ 0)
     && negb (bool_decide (new_bid_price = bid_price s) || bool_decide (new_bid_price = 0))
  then send (send_cancel_order (bid_id s)) ;;; modify (set_bid_id 0)
  else ret tt.

Definition cancel_stale_ask (new_ask_price : Z) : M unit :=
  s <- get ;;
  if bool_decide (ask_id s ≠ 0)
     && negb (bool_decide (new_ask_price = ask_price s) || bool_decide (new_ask_price = 0))
  then send (send_cancel_order (ask_id s)) ;;; modify (set_ask_id 0)
  else ret tt.

(** Lines 101-109 and 111-119: place a new order, or withdraw the
    resting one when the new price is the sentinel 0. *)
Definition place_bid (new_bid_price : Z) : M unit :=
  s <- get ;;
  if bool_decide (bid_id s = 0) && bool_decide (new_bid_price ≠ 0)
     && bool_decide (position s + LOT_SIZE < POSITION_LIMIT)
  then
    id <- next_order_id ;;
    modify (set_bid_id id) ;;;
    modify (set_bid_price new_bid_price) ;;;
    send (send_insert_order id BUY new_bid_price LOT_SIZE GOOD_FOR_DAY) ;;;
    modify (λ s, set_bids (bids s ∪ {[id]}) s)
  else if bool_decide (bid_id s ≠ 0) && bool_decide (new_bid_price = 0)
  then send (send_cancel_order (bid_id s)) ;;; modify (set_bid_id 0)
  else ret tt.

Definition place_ask (new_ask_price : Z) : M unit :=
  s <- get ;;
  if bool_decide (ask_id s = 0) && bool_decide (new_ask_price ≠ 0)
     && bool_decide (position s - LOT_SIZE > - POSITION_LIMIT)
  then
    id <- next_order_id ;;
    modify (set_ask_id id) ;;;
    modify (set_ask_price new_ask_price) ;;;
    send (send_insert_order id SELL new_ask_price LOT_SIZE GOOD_FOR_DAY) ;;;
    modify (λ s, set_asks (asks s ∪ {[id]}) s)
  else if bool_decide (ask_id s ≠ 0) && bool_decide (new_ask_price = 0)
  then send (send_cancel_order (ask_id s)) ;;; modify (set_ask_id 0)
  else ret tt.

Definition on_order_book_update_message (instrument sequence_number : Z)
    (ask_prices ask_volumes bid_prices bid_volumes : list Z) : M unit :=
  if decide (instrument = FUTURE) then
    best_bid <- index0 bid_prices ;;
    best_ask <- index0 ask_prices ;;
    s <- get ;;
    let '(new_bid_price, new_ask_price) := new_prices (position s) best_bid best_ask in
    cancel_stale_bid new_bid_price ;;;
    cancel_stale_ask new_ask_price ;;;
    place_bid new_bid_price ;;;
    place_ask new_ask_price
  else ret tt.

(** ** The host's notifications and the states they can lead to *)

Inductive event : Type :=
| ErrorMessage (client_order_id : Z) (error_message : list byte)
| HedgeFilledMessage (client_order_id price volume : Z)
| OrderBookUpdateMessage (instrument sequence_number : Z)
    (ask_prices ask_volumes bid_prices bid_volumes : list Z)
| OrderFilledMessage (client_order_id price volume : Z)
| OrderStatusMessage (client_order_id fill_volume remaining_volume fees : Z)
| TradeTicksMessage (instrument sequence_number : Z)
    (ask_prices ask_volumes bid_prices bid_volumes : list Z).

Definition dispatch (e : event) : M unit :=
  match e with
  | ErrorMessage id msg => on_error_message id msg
  | HedgeFilledMessage id p v => on_hedge_filled_message id p v
  | OrderBookUpdateMessage i n ap av bp bv => on_order_book_update_message i n ap av bp bv
  | OrderFilledMessage id p v => on_order_filled_message id p v
  | OrderStatusMessage id f r fees => on_order_status_message id f r fees
  | TradeTicksMessage i n ap av bp bv => on_trade_ticks_message i n ap av bp bv
  end.

(** The state [self] is left in by a callback, whether it returned or
    raised. *)
Definition state_of {A} (r : outcome A) : state :=
  match r with Returned _ s _ | Raised _ s _ => s end.

Definition output_of {A} (r : outcome A) : list command :=
  match r with Returned _ _ o | Raised _ _ o => o end.

Definition returns {A} (r : outcome A) : Prop :=
  match r with Returned _ _ _ => True | Raised _ _ _ => False end.

Definition step (s : state) (e : event) : state := state_of (dispatch e s).

Definition run (s : state) (es : list event) : state := fold_left step es s.

Inductive reachable : state → Prop :=
| reachable_init : reachable init
| reachable_step s e : reachable s → reachable (step s e).

(** Traces used in the examples below: a one-level order book on the
    tracked instrument. *)
Definition book (best_bid best_ask : Z) : event :=
  OrderBookUpdateMessage FUTURE 1 [best_ask] [1] [best_bid] [1].

(** One round of buying a lot: quote, get the bid filled in full, get
    its terminal status.  [k] is the bid's order id and [p] its price. *)
Definition buy_round (k p : Z) : list event :=
  [book 9900 10100; OrderFilledMessage k p LOT_SIZE; OrderStatusMessage k LOT_SIZE 0 0].

(** Eight rounds take the position from 0 to 80 (the ask of the first
    round is re-quoted, and its cancellation confirmed, in the second);
    then a ninth bid is placed and filled, and its terminal status has
    not arrived yet. *)
Definition eight_rounds : list event :=
  buy_round 1 9900 ++ [OrderStatusMessage 2 0 0 0] ++ buy_round 3 9990 ++
  buy_round 5 9990 ++ buy_round 6 9990 ++ buy_round 7 9990 ++ buy_round 8 9990 ++
  buy_round 9 9990 ++ buy_round 10 9990.

Definition ninth_fill : list event :=
  eight_rounds ++ [book 9900 10100; OrderFilledMessage 11 9990 LOT_SIZE].

(** Which notifications a callback runs to completion on. *)
Definition completes (e : event) : Prop :=
  match e with
  | OrderBookUpdateMessage i _ ask_prices _ bid_prices _ =>
      i ≠ FUTURE ∨ (bid_prices ≠ [] ∧ ask_prices ≠ [])
  | ErrorMessage _ msg => utf8_well_formed (map Byte.to_N msg) = true
  | _ => True
  end.

(** The exception a callback raises on a notification it does not run
    to completion on: [error_message.decode()] raises
    [UnicodeDecodeError], the indexing of an empty price list
    [IndexError]. *)
Definition exception_of (e : event) : exn :=
  match e with
  | ErrorMessage _ _ => UnicodeDecodeError
  | _ => IndexError
  end.

(** The bookkeeping invariant of the two sets, the two slots and the
    counter. *)
Record consistent (s : state) : Prop := {
  counter_positive : 1 ≤ order_ids s;
  bids_issued : ∀ x, x ∈ bids s → 1 ≤ x < order_ids s;
  asks_issued : ∀ x, x ∈ asks s → 1 ≤ x < order_ids s;
  sides_disjoint : ∀ x, x ∈ bids s → x ∉ asks s;
  bid_tracked : bid_id s ≠ 0 → bid_id s ∈ bids s;
  ask_tracked : ask_id s ≠ 0 → ask_id s ∈ asks s
}.


(** A property of [self] kept by a computation, however it ends. *)
Definition preserves {A} (P : state → Prop) (m : M A) : Prop :=
  ∀ s, P s → P (state_of (m s)).

(** An insert command for the given side. *)
Definition is_insert (side : Side) (c : command) : Prop :=
  ∃ id p v l, c = send_insert_order id side p v l.

(** ** Tick constants (lines 9-11)

    [MINIMUM_BID] and [MAXIMUM_ASK] come from the host package, so the
    two rounded bounds take them as arguments.  [//] and [*] associate
    to the left in Python. *)

Definition TICK_SIZE_IN_CENTS : Z := 100.

Definition MIN_BID_NEAREST_TICK (MINIMUM_BID : Z) : Z :=
  (MINIMUM_BID + TICK_SIZE_IN_CENTS) / TICK_SIZE_IN_CENTS * TICK_SIZE_IN_CENTS.

Definition MAX_ASK_NEAREST_TICK (MAXIMUM_ASK : Z) : Z :=
  MAXIMUM_ASK / TICK_SIZE_IN_CENTS * TICK_SIZE_IN_CENTS.

(** ** Command histories *)

(** Everything sent to the host while the notifications [es] are
    handled one after the other, starting in [s]. *)
Fixpoint history (s : state) (es : list event) : list command :=
  match es with
  | [] => []
  | e :: es' => output_of (dispatch e s) ++ history (step s e) es'
  end.

Definition insert_id (c : command) : option Z :=
  match c with
  | send_insert_order id _ _ _ _ => Some id
  | send_cancel_order _ => None
  end.

(** The order ids of the inserts of a command list, in sending order. *)
Definition insert_ids (cs : list command) : list Z := omap insert_id cs.

Definition inserts_on (side : Side) (c : command) : bool :=
  match c, side with
  | send_insert_order _ BUY _ _ _, BUY => true
  | send_insert_order _ SELL _ _ _, SELL => true
  | _, _ => false
  end.

Definition cancels (c : command) : bool :=
  match c with send_cancel_order _ => true | _ => false end.

(** Every tracked id outside its slot has had a cancel sent for it. *)
Definition cancels_sent (s : state) (h : list command) : Prop :=
  (∀ x, x ∈ bids s → x ≠ bid_id s → In (send_cancel_order x) h) ∧
  (∀ x, x ∈ asks s → x ≠ ask_id s → In (send_cancel_order x) h).

(** A resting quote has a recorded price, and the slots are in step
    with the counter. *)
Record priced (s : state) : Prop := {
  bid_priced : bid_id s ≠ 0 → bid_price s ≠ 0;
  ask_priced : ask_id s ≠ 0 → ask_price s ≠ 0
}.

(** The four phases of a tracked order-book update, for any quotes. *)
Definition phases (nb na : Z) : M unit :=
  cancel_stale_bid nb ;;; cancel_stale_ask na ;;; place_bid nb ;;; place_ask na.

(** * Proofs *)

(** ** Reasoning about the monad *)

Ltac unfold_M :=
  unfold place_bid, place_ask, cancel_stale_bid, cancel_stale_ask, next_order_id,
    index0, decode, bind, get, modify, send, ret, raise in *.

Ltac split_cases := repeat (first [case_bool_decide | case_decide]; simpl in *).

Lemma preserves_bind {A B} (P : state → Prop) (m : M A) (k : A → M B) :
  preserves P m → (∀ a, preserves P (k a)) → preserves P (bind m k).
Proof.
  intros Hm Hk s Hs. unfold bind.
  specialize (Hm s Hs). destruct (m s) as [a s1 o1|e s1 o1]; simpl in *; [|done].
  specialize (Hk a s1 Hm). by destruct (k a s1).
Qed.

Lemma preserves_ret {A} (P : state → Prop) (a : A) : preserves P (ret a).
Proof. by intros s Hs. Qed.

Lemma preserves_raise {A} (P : state → Prop) (e : exn) : preserves P (raise (A:=A) e).
Proof. by intros s Hs. Qed.

Lemma preserves_index0 (P : state → Prop) (xs : list Z) : preserves P (index0 xs).
Proof. destruct xs; [apply preserves_raise | apply preserves_ret]. Qed.

Lemma preserves_decode (P : state → Prop) (msg : list byte) : preserves P (decode msg).
Proof. unfold decode. destruct utf8_well_formed; [apply preserves_ret | apply preserves_raise]. Qed.

(** The order-book handler on the tracked instrument with a non-empty
    book is the four phases run on the computed quotes. *)
Lemma book_update_tracked (n best_bid best_ask : Z) (ap av bp bv : list Z) (s : state) :
  on_order_book_update_message FUTURE n (best_ask :: ap) av (best_bid :: bp) bv s =
  (cancel_stale_bid (new_prices (position s) best_bid best_ask).1 ;;;
   cancel_stale_ask (new_prices (position s) best_bid best_ask).2 ;;;
   place_bid (new_prices (position s) best_bid best_ask).1 ;;;
   place_ask (new_prices (position s) best_bid best_ask).2) s.
Proof.
  unfold on_order_book_update_message. case_decide; [|done].
  destruct (new_prices (position s) best_bid best_ask) as [nb na] eqn:E.
  unfold index0, bind at 1 2 3, get, ret. simpl. rewrite E. simpl.
  by destruct (bind _ _ s).
Qed.

Lemma reachable_run (s : state) (es : list event) : reachable s → reachable (run s es).
Proof.
  revert s. induction es as [|e es IH]; intros s Hs; simpl; [done|].
  apply IH. by constructor.
Qed.

(** ** Quotes *)

(** C1: on an order-book update of the tracked instrument, with [mid]
    the floor of (best_bid + best_ask) / 2, the handler runs its cancel
    and insert phases on the quotes [new_ask = mid], [new_bid = mid - 10]
    when position > 0, on [new_bid = mid], [new_ask = mid + 10] when
    position < 0, and on the top of book when position = 0. *)
Theorem C1_inventory_skew (s : state) (n best_bid best_ask : Z) (ap av bp bv : list Z) :
  let mid := mid_price best_bid best_ask in
  let new_bid := (new_prices (position s) best_bid best_ask).1 in
  let new_ask := (new_prices (position s) best_bid best_ask).2 in
  2 * mid ≤ best_bid + best_ask < 2 * mid + 2 ∧
  on_order_book_update_message FUTURE n (best_ask :: ap) av (best_bid :: bp) bv s =
    (cancel_stale_bid new_bid ;;; cancel_stale_ask new_ask ;;;
     place_bid new_bid ;;; place_ask new_ask) s ∧
  (position s > 0 → new_ask = mid ∧ new_bid = mid - 10) ∧
  (position s < 0 → new_bid = mid ∧ new_ask = mid + 10) ∧
  (position s = 0 → new_bid = best_bid ∧ new_ask = best_ask).
Proof.
  intros mid new_bid new_ask. split; [|split].
  - subst mid. unfold mid_price.
    pose proof (Z.div_mod (best_bid + best_ask) 2 ltac:(lia)).
    pose proof (Z.mod_pos_bound (best_bid + best_ask) 2 ltac:(lia)). lia.
  - apply book_update_tracked.
  - subst new_bid new_ask mid. unfold new_prices.
    repeat case_decide; simpl; repeat split; intros; lia.
Qed.

Lemma C1_inventory_skew_witness :
  position (run init [book 9900 10100; OrderFilledMessage 1 9900 50]) > 0 ∧
  (new_prices (position (run init [book 9900 10100; OrderFilledMessage 1 9900 50]))
              9950 10050).2 = mid_price 9950 10050 ∧
  (new_prices (position (run init [book 9900 10100; OrderFilledMessage 1 9900 50]))
              9950 10050).1 = mid_price 9950 10050 - 10.
Proof.
  assert (H : position (run init [book 9900 10100; OrderFilledMessage 1 9900 50]) > 0)
    by (vm_compute; reflexivity).
  split; [exact H|].
  exact (proj1 (proj2 (proj2
    (C1_inventory_skew (run init [book 9900 10100; OrderFilledMessage 1 9900 50])
       1 9950 10050 [] [1] [] [1]))) H).
Defined.

(** ** Which callbacks run to completion *)

Lemma phases_return (nb na : Z) (s : state) :
  returns ((cancel_stale_bid nb ;;; cancel_stale_ask na ;;; place_bid nb ;;; place_ask na) s).
Proof. unfold_M. split_cases; exact I. Qed.

(** C2, as stated, fails: an order-book update of the tracked instrument
    with empty price lists raises [IndexError] at [bid_prices[0]]. *)
Lemma C2_empty_book_raises :
  dispatch (OrderBookUpdateMessage FUTURE 1 [] [] [] []) init = Raised IndexError init [] ∧
  ¬ returns (dispatch (OrderBookUpdateMessage FUTURE 1 [] [] [] []) init).
Proof. split; [reflexivity | intros []]. Qed.

Lemma completes_or_unchanged (s : state) (e : event) :
  (returns (dispatch e s) ↔ completes e) ∧
  (¬ returns (dispatch e s) → state_of (dispatch e s) = s ∧ output_of (dispatch e s) = []).
Proof.
  destruct e as [id msg|id p v|i n ap av bp bv|id p v|id f r fees|i n ap av bp bv]; simpl.
  - unfold on_error_message, on_order_status_message, decode.
    destruct (utf8_well_formed _); unfold_M; simpl.
    + split; [split; [done|] | intros H; exfalso; apply H];
        intros; destruct (_ && _); split_cases; exact I.
    + split; [split; [intros [] | discriminate] | done].
  - split; [done | intros []; exact I].
  - destruct (decide (i = FUTURE)) as [->|Hi].
    + destruct bp as [|b bp].
      { split; [split; [intros [] | intros [?|[? _]]; done] | done]. }
      destruct ap as [|a ap].
      { split; [split; [intros [] | intros [?|[_ ?]]; done] | done]. }
      rewrite book_update_tracked.
      pose proof (phases_return (new_prices (position s) b a).1 (new_prices (position s) b a).2 s).
      split; [split; [intros _; right; done | done] | done].
    + unfold on_order_book_update_message. case_decide; [done|].
      split; [split; [by left | intros _; exact I] | intros []; exact I].
  - unfold on_order_filled_message. unfold_M. split_cases;
      (split; [done | intros []; exact I]).
  - unfold on_order_status_message. unfold_M. split_cases;
      (split; [done | intros []; exact I]).
  - split; [done | intros []; exact I].
Qed.

(** C2, amended: a callback runs to completion exactly on the
    notifications of [completes]: every fill, status, hedge-fill and
    trade-ticks notification; an order-book update of another
    instrument, or of the tracked one with non-empty bid and ask price
    lists; an error whose message is well-formed UTF-8, for any order
    id.  An order-book update of the tracked instrument with an empty
    bid or ask price list raises [IndexError], and an error whose
    message is not well-formed UTF-8 raises [UnicodeDecodeError]; a
    callback that raises does so before it changes the state or sends a
    command. *)
Theorem C2_callbacks_complete (s : state) (e : event) :
  (returns (dispatch e s) ↔ completes e) ∧
  (¬ returns (dispatch e s) → state_of (dispatch e s) = s ∧ output_of (dispatch e s) = []) ∧
  (¬ returns (dispatch e s) → dispatch e s = Raised (exception_of e) s []) ∧
  (∀ n ap av bp bv, bp = [] ∨ ap = [] →
     dispatch (OrderBookUpdateMessage FUTURE n ap av bp bv) s = Raised IndexError s []) ∧
  (∀ id msg, utf8_well_formed (map Byte.to_N msg) = false →
     dispatch (ErrorMessage id msg) s = Raised UnicodeDecodeError s []).
Proof.
  destruct (completes_or_unchanged s e) as [Hiff Hsame].
  assert (Hbook : ∀ n ap av bp bv, bp = [] ∨ ap = [] →
    dispatch (OrderBookUpdateMessage FUTURE n ap av bp bv) s = Raised IndexError s []).
  { intros n ap av bp bv Hempty. simpl. unfold on_order_book_update_message.
    case_decide; [|done].
    destruct bp as [|b bp]; [reflexivity|].
    destruct Hempty as [Hbp | ->]; [discriminate Hbp | reflexivity]. }
  assert (Herr : ∀ id msg, utf8_well_formed (map Byte.to_N msg) = false →
    dispatch (ErrorMessage id msg) s = Raised UnicodeDecodeError s []).
  { intros id msg Hbad. simpl. unfold on_error_message, decode. by rewrite Hbad. }
  split; [done|]. split; [done|]. split; [|done].
  intros Hraise.
  assert (Hnot : ¬ completes e) by (intros Hc; by apply Hraise, Hiff).
  destruct e as [id msg|id p v|i n ap av bp bv|id p v|id f r fees|i n ap av bp bv];
    simpl in Hnot; try (exfalso; by apply Hnot).
  - apply Herr. by destruct (utf8_well_formed _).
  - destruct (decide (i = FUTURE)) as [->|Hi]; [|exfalso; apply Hnot; by left].
    apply Hbook. destruct bp as [|b bp]; [by left|].
    destruct ap as [|a ap]; [by right|].
    exfalso. apply Hnot. right. by split.
Qed.

Lemma C2_callbacks_complete_witness :
  completes (book 9900 10100) ∧ returns (dispatch (book 9900 10100) init).
Proof.
  assert (H : completes (book 9900 10100)) by (right; split; discriminate).
  split; [exact H|].
  exact (proj2 (proj1 (C2_callbacks_complete init (book 9900 10100))) H).
Defined.

(** ** Fills *)

(** C5: a fill of an id in the outstanding buys adds the volume to the
    position; otherwise a fill of an id in the outstanding sells
    subtracts it; a fill of an id in neither set changes nothing.  No
    other attribute changes and nothing is sent. *)
Theorem C5_fill_attribution (s : state) (client_order_id price volume : Z) :
  (client_order_id ∈ bids s →
     on_order_filled_message client_order_id price volume s
     = Returned tt (set_position (position s + volume) s) []) ∧
  (client_order_id ∉ bids s → client_order_id ∈ asks s →
     on_order_filled_message client_order_id price volume s
     = Returned tt (set_position (position s - volume) s) []) ∧
  (client_order_id ∉ bids s → client_order_id ∉ asks s →
     on_order_filled_message client_order_id price volume s = Returned tt s []).
Proof.
  unfold on_order_filled_message. unfold_M. split_cases; repeat split; intros; done.
Qed.

Lemma C5_fill_attribution_witness :
  1 ∈ bids (step init (book 9900 10100)) ∧
  position (step (step init (book 9900 10100)) (OrderFilledMessage 1 9900 7)) = 7.
Proof.
  assert (H : 1 ∈ bids (step init (book 9900 10100))).
  { apply (bool_decide_unpack _). vm_compute. exact I. }
  split; [exact H|].
  unfold step at 1. simpl dispatch.
  rewrite (proj1 (C5_fill_attribution (step init (book 9900 10100)) 1 9900 7) H).
  reflexivity.
Defined.

(** ** Bookkeeping invariant *)

Lemma consistent_init : consistent init.
Proof. split; simpl; intros; try lia; set_solver. Qed.

Lemma consistent_phase (nb : Z) :
  preserves consistent (cancel_stale_bid nb) ∧ preserves consistent (cancel_stale_ask nb) ∧
  preserves consistent (place_bid nb) ∧ preserves consistent (place_ask nb).
Proof.
  split; [|split; [|split]]; intros s [Hc Hb Ha Hd Hbt Hat]; unfold_M; split_cases;
    split; simpl; intros; try done; try lia.
  all: set_unfold; intuition (subst; eauto; try lia).
  all: match goal with Hx : ∀ x, _ → _ ≤ x < _, Hy : _ |- _ => apply Hx in Hy; lia end.
Qed.

Lemma consistent_status (id f r fees : Z) :
  preserves consistent (on_order_status_message id f r fees).
Proof.
  intros s [Hc Hb Ha Hd Hbt Hat]. unfold on_order_status_message. unfold_M; split_cases;
    split; simpl; intros; try done; try lia.
  all: set_unfold; intuition (subst; eauto; try lia).
  all: first [ match goal with Hx : ∀ x, _ → _ ≤ x < _, Hy : _ |- _ => apply Hx in Hy; lia end
             | match goal with He : ask_id _ = bid_id _ |- _ => rewrite He in *; eauto end ].
Qed.

Lemma consistent_step (s : state) (e : event) : consistent s → consistent (step s e).
Proof.
  unfold step.
  destruct e as [id msg|id p v|i n ap av bp bv|id p v|id f r fees|i n ap av bp bv]; simpl.
  - revert s. change (preserves consistent (on_error_message id msg)).
    unfold on_error_message. apply preserves_bind; [apply preserves_decode|]. intros _.
    apply preserves_bind; [by intros s Hs|]. intros s.
    destruct (_ && _); [apply consistent_status | apply preserves_ret].
  - done.
  - revert s. change (preserves consistent (on_order_book_update_message i n ap av bp bv)).
    unfold on_order_book_update_message. case_decide; [|apply preserves_ret].
    apply preserves_bind; [apply preserves_index0|]. intros b.
    apply preserves_bind; [apply preserves_index0|]. intros a.
    apply preserves_bind; [by intros s Hs|]. intros s.
    destruct (new_prices _ _ _) as [nb na].
    repeat (apply preserves_bind; [apply consistent_phase|]; intros _).
    apply consistent_phase.
  - intros [H1 H2 H3 H4 H5 H6]. unfold on_order_filled_message. unfold_M. split_cases;
      by split.
  - apply consistent_status.
  - done.
Qed.

Lemma reachable_consistent (s : state) : reachable s → consistent s.
Proof. induction 1; [apply consistent_init | by apply consistent_step]. Qed.

(** C9: in every reachable state no order id is in both outstanding
    sets, a nonzero [bid_id] is in the outstanding buys and a nonzero
    [ask_id] is in the outstanding sells. *)
Theorem C9_sets_and_slots (s : state) :
  reachable s →
  (∀ x, ¬ (x ∈ bids s ∧ x ∈ asks s)) ∧
  (bid_id s ≠ 0 → bid_id s ∈ bids s) ∧
  (ask_id s ≠ 0 → ask_id s ∈ asks s).
Proof.
  intros Hs. destruct (reachable_consistent s Hs) as [H1 H2 H3 H4 H5 H6].
  split; [|done]. intros x [Hb Ha]. by apply (H4 x).
Qed.

Lemma C9_sets_and_slots_witness :
  reachable (step init (book 9900 10100)) ∧
  bid_id (step init (book 9900 10100)) ∈ bids (step init (book 9900 10100)).
Proof.
  assert (H : reachable (step init (book 9900 10100)))
    by exact (reachable_step init (book 9900 10100) reachable_init).
  split; [exact H|].
  apply (proj1 (proj2 (C9_sets_and_slots (step init (book 9900 10100)) H))).
  vm_compute. discriminate.
Defined.

(** ** Order status *)

Lemma state_eq (s1 s2 : state) :
  order_ids s1 = order_ids s2 → bids s1 = bids s2 → asks s1 = asks s2 →
  ask_id s1 = ask_id s2 → ask_price s1 = ask_price s2 →
  bid_id s1 = bid_id s2 → bid_price s1 = bid_price s2 → position s1 = position s2 →
  s1 = s2.
Proof. destruct s1, s2; simpl; intros; by subst. Qed.

(** A terminal status for an id that sits in no slot and in no set
    changes nothing. *)
Lemma status_cleared_noop (s : state) (id f fees : Z) :
  id ∉ bids s → id ∉ asks s →
  (id = bid_id s → id = 0) → (id = ask_id s → id = 0) →
  on_order_status_message id f 0 fees s = Returned tt s [].
Proof.
  intros Hb Ha Hbid Haid. unfold on_order_status_message. unfold_M. split_cases;
    f_equal; apply state_eq; simpl; try done; try set_solver; try lia.
  all: by (rewrite <- Hbid || rewrite <- Haid).
Qed.

(** C7: a status with [remaining_volume = 0] clears [bid_id] if the id
    equals it, else clears [ask_id] if the id equals that, and removes
    the id from both sets, touching nothing else; a status with
    [remaining_volume ≠ 0] changes nothing; a second terminal status for
    the same id, in any reachable state, changes nothing and raises
    nothing. *)
Theorem C7_terminal_status (s : state) (id f r fees : Z) :
  (r = 0 →
   ∃ s', on_order_status_message id f r fees s = Returned tt s' [] ∧
     (id = bid_id s → bid_id s' = 0 ∧ ask_id s' = ask_id s) ∧
     (id ≠ bid_id s → id = ask_id s → ask_id s' = 0 ∧ bid_id s' = bid_id s) ∧
     (id ≠ bid_id s → id ≠ ask_id s → bid_id s' = bid_id s ∧ ask_id s' = ask_id s) ∧
     bids s' = bids s ∖ {[id]} ∧ asks s' = asks s ∖ {[id]} ∧
     order_ids s' = order_ids s ∧ bid_price s' = bid_price s ∧
     ask_price s' = ask_price s ∧ position s' = position s ∧
     (reachable s → ∀ f' fees',
        on_order_status_message id f' 0 fees' s' = Returned tt s' [])) ∧
  (r ≠ 0 → on_order_status_message id f r fees s = Returned tt s []).
Proof.
  split.
  - intros ->.
    assert (Hrun : ∃ s', on_order_status_message id f 0 fees s = Returned tt s' []).
    { unfold on_order_status_message. unfold_M. split_cases; eauto. }
    destruct Hrun as [s' Hs']. exists s'. split; [done|].
    assert (Hfields :
      (id = bid_id s → bid_id s' = 0 ∧ ask_id s' = ask_id s) ∧
      (id ≠ bid_id s → id = ask_id s → ask_id s' = 0 ∧ bid_id s' = bid_id s) ∧
      (id ≠ bid_id s → id ≠ ask_id s → bid_id s' = bid_id s ∧ ask_id s' = ask_id s) ∧
      bids s' = bids s ∖ {[id]} ∧ asks s' = asks s ∖ {[id]} ∧
      order_ids s' = order_ids s ∧ bid_price s' = bid_price s ∧
      ask_price s' = ask_price s ∧ position s' = position s).
    { revert Hs'. unfold on_order_status_message. unfold_M. split_cases;
        intros [= <-]; simpl; repeat split; intros; done. }
    destruct Hfields as (Hb & Ha & Hn & Hbs & Has & Ho & Hbp & Hap & Hp).
    repeat (split; [done|]).
    intros Hreach f' fees'.
    destruct (reachable_consistent s Hreach) as [Hc Hbi Hai Hd Hbt Hat].
    apply status_cleared_noop.
    + rewrite Hbs. set_solver.
    + rewrite Has. set_solver.
    + intros Hid. destruct (decide (id = bid_id s)) as [E|E].
      * destruct (Hb E) as [H0 _]. congruence.
      * destruct (decide (id = ask_id s)) as [E'|E'].
        -- destruct (Ha E E') as [_ H0]. congruence.
        -- destruct (Hn E E') as [H0 _]. congruence.
    + intros Hid. destruct (decide (id = bid_id s)) as [E|E].
      * destruct (Hb E) as [H0 H1]. destruct (decide (id = 0)) as [|Hnz]; [done|].
        exfalso. apply (Hd id).
        -- rewrite E. apply Hbt. congruence.
        -- rewrite Hid, H1. apply Hat. congruence.
      * destruct (decide (id = ask_id s)) as [E'|E'].
        -- destruct (Ha E E') as [H0 _]. congruence.
        -- destruct (Hn E E') as [_ H0]. congruence.
  - intros Hr. unfold on_order_status_message. by case_decide.
Qed.

Lemma C7_terminal_status_witness :
  0 = 0 ∧
  ∃ s', on_order_status_message 1 10 0 0 (step init (book 9900 10100)) = Returned tt s' [] ∧
        bid_id s' = 0.
Proof.
  split; [reflexivity|].
  destruct (proj1 (C7_terminal_status (step init (book 9900 10100)) 1 10 0 0) eq_refl)
    as (s' & Hs' & Hb & _).
  exists s'. split; [exact Hs'|]. apply Hb. reflexivity.
Defined.

(** ** Errors *)

(** C8, as stated, fails: for a tracked order and a message that is not
    well-formed UTF-8, the handler raises at [error_message.decode()]
    before its test, so the order stays in its slot and in its set,
    unlike after a terminal status. *)
Lemma C8_undecodable_message_keeps_order :
  1 ≠ 0 ∧ 1 ∈ bids (step init (book 9900 10100)) ∧
  dispatch (ErrorMessage 1 [xff]) (step init (book 9900 10100))
    = Raised UnicodeDecodeError (step init (book 9900 10100)) [] ∧
  bid_id (state_of (dispatch (ErrorMessage 1 [xff]) (step init (book 9900 10100)))) = 1 ∧
  bid_id (state_of (dispatch (OrderStatusMessage 1 0 0 0) (step init (book 9900 10100)))) = 0 ∧
  state_of (dispatch (ErrorMessage 1 [xff]) (step init (book 9900 10100)))
    ≠ state_of (dispatch (OrderStatusMessage 1 0 0 0) (step init (book 9900 10100))).
Proof.
  split; [done|]. split; [apply (bool_decide_unpack _); vm_compute; exact I|].
  split; [reflexivity|]. split; [reflexivity|]. split; [reflexivity|].
  intros H. apply (f_equal bid_id) in H. vm_compute in H. discriminate.
Qed.

(** C8, amended: for every error notification whose message is
    well-formed UTF-8: if the order id is nonzero and in either
    outstanding set, the handler does exactly what a terminal status
    (zero fill, zero remaining, zero fees) for that id does; if the id
    is 0 or in neither set, the state is unchanged.  In the latter case
    the state is unchanged whatever the message. *)
Theorem C8_error_cleanup (s : state) (id : Z) (msg : list byte) :
  (utf8_well_formed (map Byte.to_N msg) = true →
     (id ≠ 0 → (id ∈ bids s ∨ id ∈ asks s) →
        on_error_message id msg s = on_order_status_message id 0 0 0 s) ∧
     (id = 0 ∨ ((id ∉ bids s) ∧ (id ∉ asks s)) →
        on_error_message id msg s = Returned tt s [])) ∧
  (id = 0 ∨ ((id ∉ bids s) ∧ (id ∉ asks s)) → state_of (on_error_message id msg s) = s).
Proof.
  unfold on_error_message, decode. split.
  - intros ->. split.
    + intros Hnz Htracked. unfold bind at 1 2, get, ret. split_cases; try tauto;
        by destruct (on_order_status_message id 0 0 0 s).
    + intros Hcase. unfold bind at 1 2, get, ret.
      split_cases; first [done | exfalso; tauto].
  - intros Hcase. destruct (utf8_well_formed _); [|done].
    unfold bind at 1 2, get, ret. split_cases; first [done | exfalso; tauto].
Qed.

Lemma C8_error_cleanup_witness :
  utf8_well_formed (map Byte.to_N [x6e; x6f]) = true ∧ 1 ≠ 0 ∧
  (1 ∈ bids (step init (book 9900 10100)) ∨ 1 ∈ asks (step init (book 9900 10100))) ∧
  on_error_message 1 [x6e; x6f] (step init (book 9900 10100))
    = on_order_status_message 1 0 0 0 (step init (book 9900 10100)).
Proof.
  assert (Hm : utf8_well_formed (map Byte.to_N [x6e; x6f]) = true) by reflexivity.
  assert (Hnz : (1:Z) ≠ 0) by discriminate.
  assert (Hin : 1 ∈ bids (step init (book 9900 10100)) ∨ 1 ∈ asks (step init (book 9900 10100))).
  { left. apply (bool_decide_unpack _). vm_compute. exact I. }
  repeat (split; [assumption|]).
  exact (proj1 (proj1 (C8_error_cleanup (step init (book 9900 10100)) 1 [x6e; x6f]) Hm) Hnz Hin).
Defined.

(** ** Late fills *)







(** The host's ordering guarantee (a status arrives only for an order
    already issued, so for an id below the counter) is what the next
    theorem rests on: a terminal status for id 1 handled in the initial
    state, before 1 is issued, would not keep the counter from issuing
    1 afterwards. *)
Lemma status_before_issue_is_not_final :
  position (run init [OrderStatusMessage 1 0 0 0; book 9900 10100]) = 0 ∧
  position (run init [OrderStatusMessage 1 0 0 0; book 9900 10100;
                      OrderFilledMessage 1 9900 LOT_SIZE]) = 10 ∧
  position (step (run (step init (OrderStatusMessage 1 0 0 0)) [book 9900 10100])
                 (OrderFilledMessage 1 9900 LOT_SIZE))
    ≠ position (run (step init (OrderStatusMessage 1 0 0 0)) [book 9900 10100]).
Proof. split; [|split]; vm_compute; congruence. Qed.



(** ** Position cap *)




(** ** Placing and cancelling quotes *)

Ltac prune := try (exfalso; first [congruence | lia]).

Ltac split_pruning :=
  unfold_M; unfold LOT_SIZE, POSITION_LIMIT in *;
  repeat (first [case_bool_decide | case_decide]; simpl in *; prune).

Ltac solve_inserts :=
  match goal with
  | |- _ ↔ _ =>
      split;
      [ intros (c & Hin & (? & ? & ? & ? & ->));
        repeat (destruct Hin as [Hin|Hin]; [try discriminate Hin|]);
        first [done | lia | (repeat split; first [done | lia])]
      | intros (? & ? & ?);
        first [ exfalso; first [done | lia | congruence]
              | eexists; split; cycle 1;
                [eexists _, _, _, _; reflexivity | simpl; eauto 8] ] ]
  | |- _ = _ → ¬ _ =>
      intros ? (c & Hin & (? & ? & ? & ? & ->));
      repeat (destruct Hin as [Hin|Hin]; [try discriminate Hin|]);
      first [done | lia]
  | |- _ ∧ _ ∧ _ → _ =>
      intros (? & ? & ?); first [exfalso; first [done | lia | congruence] | solve [eauto 8]]
  end.

(** C4: on an order-book update of the tracked instrument, a buy
    insert is sent exactly when, after the cancellation step, [bid_id]
    is 0, the computed bid price is nonzero and
    position + LOT_SIZE < POSITION_LIMIT; a sell insert exactly when
    [ask_id] is 0, the computed ask price is nonzero and
    position - LOT_SIZE > -POSITION_LIMIT.  The insert carries the
    computed price, LOT_SIZE and the day lifespan.  At position 90 no
    buy insert is sent. *)
Theorem C4_insert_conditions (s : state) (n best_bid best_ask : Z) (ap av bp bv : list Z) :
  let new_bid := (new_prices (position s) best_bid best_ask).1 in
  let new_ask := (new_prices (position s) best_bid best_ask).2 in
  let s1 := state_of ((cancel_stale_bid new_bid ;;; cancel_stale_ask new_ask) s) in
  let out := output_of
    (on_order_book_update_message FUTURE n (best_ask :: ap) av (best_bid :: bp) bv s) in
  position s1 = position s ∧
  ((∃ c, In c out ∧ is_insert BUY c) ↔
     bid_id s1 = 0 ∧ new_bid ≠ 0 ∧ position s + LOT_SIZE < POSITION_LIMIT) ∧
  (bid_id s1 = 0 ∧ new_bid ≠ 0 ∧ position s + LOT_SIZE < POSITION_LIMIT →
     In (send_insert_order (order_ids s) BUY new_bid LOT_SIZE GOOD_FOR_DAY) out) ∧
  ((∃ c, In c out ∧ is_insert SELL c) ↔
     ask_id s1 = 0 ∧ new_ask ≠ 0 ∧ position s - LOT_SIZE > - POSITION_LIMIT) ∧
  (ask_id s1 = 0 ∧ new_ask ≠ 0 ∧ position s - LOT_SIZE > - POSITION_LIMIT →
     In (send_insert_order (order_ids s) SELL new_ask LOT_SIZE GOOD_FOR_DAY) out ∨
     In (send_insert_order (order_ids s + 1) SELL new_ask LOT_SIZE GOOD_FOR_DAY) out) ∧
  (position s = POSITION_LIMIT - LOT_SIZE → ¬ ∃ c, In c out ∧ is_insert BUY c).
Proof.
  intros new_bid new_ask s1 out. subst s1 out. rewrite book_update_tracked.
  fold new_bid new_ask. clearbody new_bid new_ask.
  unfold is_insert. split_pruning.
  all: (split; [done|]); repeat (split; [solve_inserts|]); solve_inserts.
Qed.

Lemma C4_insert_conditions_witness :
  position (run init (ninth_fill ++ [OrderStatusMessage 11 LOT_SIZE 0 0]))
    = POSITION_LIMIT - LOT_SIZE ∧
  ¬ ∃ c, In c (output_of (on_order_book_update_message FUTURE 1 [10100] [1] [9900] [1]
                            (run init (ninth_fill ++ [OrderStatusMessage 11 LOT_SIZE 0 0]))))
         ∧ is_insert BUY c.
Proof.
  assert (H : position (run init (ninth_fill ++ [OrderStatusMessage 11 LOT_SIZE 0 0]))
              = POSITION_LIMIT - LOT_SIZE) by (vm_compute; reflexivity).
  split; [exact H|].
  exact (proj2 (proj2 (proj2 (proj2 (proj2
    (C4_insert_conditions (run init (ninth_fill ++ [OrderStatusMessage 11 LOT_SIZE 0 0]))
       1 9900 10100 [] [1] [] [1]))))) H).
Defined.

Ltac solve_cancel :=
  repeat split; intros; prune;
  first
    [ done
    | lia
    | solve [simpl; eauto 8]
    | match goal with
      | H : ∃ c, _ ∧ _ |- False =>
          destruct H as (c & Hin & (? & ? & ? & ? & ->)); simpl in Hin;
          repeat (destruct Hin as [Hin|Hin]; [try discriminate Hin|]); done
      | |- ¬ _ =>
          intros (c & Hin & (? & ? & ? & ? & ->)); simpl in Hin;
          repeat (destruct Hin as [Hin|Hin]; [try discriminate Hin|]); done
      end ].

(** C6: on an order-book update of the tracked instrument, a resting
    bid whose recorded price differs from the new nonzero bid price is
    cancelled: the cancel for [bid_id] is the first command sent,
    [bid_id] is cleared without touching the outstanding buys, and only
    then the bid side is decided, with the slot empty: a new bid is
    inserted if the cap allows, and the slot stays empty otherwise; the
    cancelled id is still in the outstanding buys when the handler
    returns.  The same holds for a resting ask, whose cancel is preceded
    by at most the bid's cancel. *)
Theorem C6_stale_quote_cancelled (s : state) (n best_bid best_ask : Z)
    (ap av bp bv : list Z) :
  let new_bid := (new_prices (position s) best_bid best_ask).1 in
  let new_ask := (new_prices (position s) best_bid best_ask).2 in
  let s0 := state_of (cancel_stale_bid new_bid s) in
  let r := on_order_book_update_message FUTURE n (best_ask :: ap) av (best_bid :: bp) bv s in
  (bid_id s ≠ 0 → new_bid ≠ bid_price s → new_bid ≠ 0 →
     cancel_stale_bid new_bid s
       = Returned tt (set_bid_id 0 s) [send_cancel_order (bid_id s)] ∧
     ∃ rest, output_of r = send_cancel_order (bid_id s) :: rest ∧
       (position s + LOT_SIZE < POSITION_LIMIT →
          In (send_insert_order (order_ids s) BUY new_bid LOT_SIZE GOOD_FOR_DAY) rest ∧
          bid_id (state_of r) = order_ids s ∧
          bids (state_of r) = bids s ∪ {[order_ids s]}) ∧
       (¬ position s + LOT_SIZE < POSITION_LIMIT →
          (¬ ∃ c, In c rest ∧ is_insert BUY c) ∧
          bid_id (state_of r) = 0 ∧ bids (state_of r) = bids s)) ∧
  (ask_id s ≠ 0 → new_ask ≠ ask_price s → new_ask ≠ 0 →
     cancel_stale_ask new_ask s0
       = Returned tt (set_ask_id 0 s0) [send_cancel_order (ask_id s)] ∧
     ∃ pre rest, output_of r = pre ++ send_cancel_order (ask_id s) :: rest ∧
       (pre = [] ∨ pre = [send_cancel_order (bid_id s)]) ∧
       (position s - LOT_SIZE > - POSITION_LIMIT →
          In (send_insert_order (ask_id (state_of r)) SELL new_ask LOT_SIZE GOOD_FOR_DAY) rest ∧
          ask_id (state_of r) = order_ids (state_of r) - 1 ∧
          order_ids s ≤ ask_id (state_of r) ∧
          asks (state_of r) = asks s ∪ {[ask_id (state_of r)]}) ∧
       (¬ position s - LOT_SIZE > - POSITION_LIMIT →
          (¬ ∃ c, In c rest ∧ is_insert SELL c) ∧
          ask_id (state_of r) = 0 ∧ asks (state_of r) = asks s)).
Proof.
  intros new_bid new_ask s0 r. subst s0 r. rewrite book_update_tracked.
  fold new_bid new_ask. clearbody new_bid new_ask. unfold is_insert. split.
  - intros Hid Hprice Hnz. split.
    + split_pruning; done.
    + split_pruning; (eexists; split; [reflexivity|]); solve_cancel.
  - intros Hid Hprice Hnz. split.
    + split_pruning; done.
    + split_pruning;
        first [ exists []; eexists; split; [reflexivity|]
              | eexists [_]; eexists; split; [reflexivity|] ];
        solve_cancel.
Qed.

Lemma C6_stale_quote_cancelled_witness :
  bid_id (run init [book 9900 10100; OrderFilledMessage 1 9900 5]) ≠ 0 ∧
  (new_prices (position (run init [book 9900 10100; OrderFilledMessage 1 9900 5]))
              9950 10050).1
    ≠ bid_price (run init [book 9900 10100; OrderFilledMessage 1 9900 5]) ∧
  (new_prices (position (run init [book 9900 10100; OrderFilledMessage 1 9900 5]))
              9950 10050).1 ≠ 0 ∧
  cancel_stale_bid
    (new_prices (position (run init [book 9900 10100; OrderFilledMessage 1 9900 5]))
                9950 10050).1
    (run init [book 9900 10100; OrderFilledMessage 1 9900 5])
  = Returned tt (set_bid_id 0 (run init [book 9900 10100; OrderFilledMessage 1 9900 5]))
      [send_cancel_order (bid_id (run init [book 9900 10100; OrderFilledMessage 1 9900 5]))].
Proof.
  assert (H1 : bid_id (run init [book 9900 10100; OrderFilledMessage 1 9900 5]) ≠ 0)
    by (vm_compute; discriminate).
  assert (H2 : (new_prices (position (run init [book 9900 10100; OrderFilledMessage 1 9900 5]))
                           9950 10050).1
               ≠ bid_price (run init [book 9900 10100; OrderFilledMessage 1 9900 5]))
    by (vm_compute; discriminate).
  assert (H3 : (new_prices (position (run init [book 9900 10100; OrderFilledMessage 1 9900 5]))
                           9950 10050).1 ≠ 0)
    by (vm_compute; discriminate).
  split; [exact H1|]. split; [exact H2|]. split; [exact H3|].
  exact (proj1 (proj1 (C6_stale_quote_cancelled
                         (run init [book 9900 10100; OrderFilledMessage 1 9900 5])
                         1 9950 10050 [] [1] [] [1]) H1 H2 H3)).
Defined.

(** * Further properties of the callbacks *)

(** ** Tick rounding *)

(** X1: [MIN_BID_NEAREST_TICK] is the smallest multiple of the tick size
    strictly above [MINIMUM_BID], and [MAX_ASK_NEAREST_TICK] the largest
    multiple of the tick size not above [MAXIMUM_ASK], for every
    integer value of the two host constants (negative ones included). *)
Theorem X1_nearest_ticks (MINIMUM_BID MAXIMUM_ASK : Z) :
  (TICK_SIZE_IN_CENTS | MIN_BID_NEAREST_TICK MINIMUM_BID) ∧
  MINIMUM_BID < MIN_BID_NEAREST_TICK MINIMUM_BID ≤ MINIMUM_BID + TICK_SIZE_IN_CENTS ∧
  (∀ m, (TICK_SIZE_IN_CENTS | m) → MINIMUM_BID < m → MIN_BID_NEAREST_TICK MINIMUM_BID ≤ m) ∧
  (TICK_SIZE_IN_CENTS | MAX_ASK_NEAREST_TICK MAXIMUM_ASK) ∧
  MAXIMUM_ASK - TICK_SIZE_IN_CENTS < MAX_ASK_NEAREST_TICK MAXIMUM_ASK ≤ MAXIMUM_ASK ∧
  (∀ m, (TICK_SIZE_IN_CENTS | m) → m ≤ MAXIMUM_ASK → m ≤ MAX_ASK_NEAREST_TICK MAXIMUM_ASK).
Proof.
  unfold MIN_BID_NEAREST_TICK, MAX_ASK_NEAREST_TICK, TICK_SIZE_IN_CENTS.
  pose proof (Z.div_mod (MINIMUM_BID + 100) 100 ltac:(lia)) as Hb.
  pose proof (Z.mod_pos_bound (MINIMUM_BID + 100) 100 ltac:(lia)) as Hb'.
  pose proof (Z.div_mod MAXIMUM_ASK 100 ltac:(lia)) as Ha.
  pose proof (Z.mod_pos_bound MAXIMUM_ASK 100 ltac:(lia)) as Ha'.
  repeat split; try lia.
  - by exists ((MINIMUM_BID + 100) / 100).
  - intros m [k ->] Hm.
    assert ((MINIMUM_BID + 100) / 100 < k + 1); [|lia].
    apply Z.div_lt_upper_bound; lia.
  - by exists (MAXIMUM_ASK / 100).
  - intros m [k ->] Hm.
    assert (k ≤ MAXIMUM_ASK / 100); [|lia].
    apply Z.div_le_lower_bound; lia.
Qed.

(** ** What each kind of notification can touch *)

Lemma book_update_phases (n : Z) (ap av bp bv : list Z) (s : state) :
  bp ≠ [] → ap ≠ [] →
  ∃ nb na, on_order_book_update_message FUTURE n ap av bp bv s = phases nb na s.
Proof.
  destruct bp as [|b bp]; [done|]. destruct ap as [|a ap]; [done|]. intros _ _.
  eexists _, _. apply book_update_tracked.
Qed.

(** Case analysis on a notification: every case but a tracked order-book
    update with a non-empty book is left to [tac]. *)
Ltac by_event e s tac :=
  let i := fresh "i" in let bp := fresh "bp" in let ap := fresh "ap" in
  destruct e as [?id ?msg|?id ?p ?v|i ?n ap ?av bp ?bv|?id ?p ?v|?id ?f ?r ?fees|?i ?n ?ap ?av ?bp ?bv];
  [ tac | tac
  | destruct (decide (i = FUTURE)) as [->|?];
    [ destruct bp as [|?b bp]; [tac|]; destruct ap as [|?a ap]; [tac|]
    | tac ]
  | tac | tac | tac ].

Ltac unfold_handlers :=
  unfold step, dispatch, on_error_message, on_hedge_filled_message,
    on_order_book_update_message, on_order_filled_message, on_order_status_message,
    on_trade_ticks_message in *.

Ltac other_event :=
  unfold_handlers; unfold LOT_SIZE, POSITION_LIMIT in *; unfold_M;
  repeat (first [ case_bool_decide | case_decide
                | match goal with |- context [utf8_well_formed ?m] =>
                    destruct (utf8_well_formed m) end ];
          simpl in *; prune).

(** X2: only an order-book update of the tracked instrument with
    non-empty price lists sends anything to the host: fills, statuses,
    errors, hedge fills, trade ticks and updates of other instruments
    never send a command. *)
Theorem X2_only_book_updates_send (s : state) (e : event) :
  output_of (dispatch e s) ≠ [] →
  ∃ n ap av bp bv, e = OrderBookUpdateMessage FUTURE n ap av bp bv ∧ bp ≠ [] ∧ ap ≠ [].
Proof.
  by_event e s ltac:(other_event; try done).
  intros _. by eexists _, _, _, _, _.
Qed.

Lemma X2_only_book_updates_send_witness :
  output_of (dispatch (book 9900 10100) init) ≠ [] ∧
  ∃ n ap av bp bv,
    book 9900 10100 = OrderBookUpdateMessage FUTURE n ap av bp bv ∧ bp ≠ [] ∧ ap ≠ [].
Proof.
  assert (H : output_of (dispatch (book 9900 10100) init) ≠ []) by (vm_compute; discriminate).
  split; [exact H|]. exact (X2_only_book_updates_send init (book 9900 10100) H).
Defined.

Lemma phases_frame (nb na : Z) (s : state) :
  position (state_of (phases nb na s)) = position s ∧
  bids s ⊆ bids (state_of (phases nb na s)) ∧
  asks s ⊆ asks (state_of (phases nb na s)).
Proof. unfold phases. split_pruning; set_solver. Qed.

(** X3: the position moves only in [on_order_filled_message], and only
    for a nonzero volume on a tracked id: every other notification, and
    in particular a hedge fill, a status or an order placement, leaves
    it as it is. *)
Theorem X3_position_moves_on_fills_only (s : state) (e : event) :
  position (step s e) ≠ position s →
  ∃ id p v, e = OrderFilledMessage id p v ∧ v ≠ 0 ∧ (id ∈ bids s ∨ id ∈ asks s).
Proof.
  by_event e s ltac:(other_event; try done).
  - unfold step, dispatch. rewrite book_update_tracked.
    intros Hne. exfalso. apply Hne. apply (phases_frame _ _ s).
  - intros Hne. eexists _, _, _. split; [done|]. split; [lia|by left].
  - intros Hne. eexists _, _, _. split; [done|]. split; [lia|by right].
Qed.

Lemma X3_position_moves_on_fills_only_witness :
  position (step (step init (book 9900 10100)) (OrderFilledMessage 2 10100 4))
    ≠ position (step init (book 9900 10100)) ∧
  ∃ id p v, OrderFilledMessage 2 10100 4 = OrderFilledMessage id p v ∧ v ≠ 0 ∧
    (id ∈ bids (step init (book 9900 10100)) ∨ id ∈ asks (step init (book 9900 10100))).
Proof.
  assert (H : position (step (step init (book 9900 10100)) (OrderFilledMessage 2 10100 4))
              ≠ position (step init (book 9900 10100))) by (vm_compute; discriminate).
  split; [exact H|].
  exact (X3_position_moves_on_fills_only (step init (book 9900 10100))
           (OrderFilledMessage 2 10100 4) H).
Defined.

(** ** The commands a callback sends *)

Ltac book_event s :=
  unfold step, dispatch; rewrite book_update_tracked;
  destruct (new_prices (position s) _ _) as [?nb ?na]; simpl fst; simpl snd;
  split_pruning.

Ltac each_command H :=
  simpl in H; repeat (destruct H as [H|H]; [try discriminate H|]); try done.

(** X4: every insert a callback sends is for LOT_SIZE units, good for
    the day, at a nonzero price, under an id taken from the counter
    during that callback; when the callback returns the id sits in the
    slot of its side with that price recorded and is a member of the
    outstanding set of its side, and the position respected the cap of
    that side. *)
Theorem X4_inserts_are_recorded (s : state) (e : event)
    (id : Z) (side : Side) (p v : Z) (l : Lifespan) :
  In (send_insert_order id side p v l) (output_of (dispatch e s)) →
  v = LOT_SIZE ∧ l = GOOD_FOR_DAY ∧ p ≠ 0 ∧
  order_ids s ≤ id < order_ids (step s e) ∧
  match side with
  | BUY => bid_id (step s e) = id ∧ bid_price (step s e) = p ∧ id ∈ bids (step s e) ∧
           position s + LOT_SIZE < POSITION_LIMIT
  | SELL => ask_id (step s e) = id ∧ ask_price (step s e) = p ∧ id ∈ asks (step s e) ∧
            position s - LOT_SIZE > - POSITION_LIMIT
  end.
Proof.
  by_event e s ltac:(other_event; try done).
  book_event s; intros Hin; each_command Hin.
  all: injection Hin as <- <- <- <- <-; repeat split;
    first [done | lia | by apply elem_of_union_r, elem_of_singleton].
Qed.

Lemma X4_inserts_are_recorded_witness :
  In (send_insert_order 2 SELL 10100 10 GOOD_FOR_DAY)
     (output_of (dispatch (book 9900 10100) init)) ∧
  ask_id (step init (book 9900 10100)) = 2 ∧ ask_price (step init (book 9900 10100)) = 10100.
Proof.
  assert (H : In (send_insert_order 2 SELL 10100 10 GOOD_FOR_DAY)
                 (output_of (dispatch (book 9900 10100) init)))
    by (vm_compute; tauto).
  split; [exact H|].
  pose proof (X4_inserts_are_recorded init (book 9900 10100) 2 SELL 10100 10 GOOD_FOR_DAY H)
    as (_ & _ & _ & _ & Hid & Hp & _).
  exact (conj Hid Hp).
Defined.

(** X5: in a reachable state, every cancel a callback sends is for the
    nonzero id resting in the bid slot or in the ask slot; that id is
    tracked on its side before and after the callback (a cancel does
    not untrack), and it has left its slot when the callback returns. *)
Theorem X5_cancels_target_resting_orders (s : state) (e : event) (x : Z) :
  reachable s →
  In (send_cancel_order x) (output_of (dispatch e s)) →
  x ≠ 0 ∧
  ((x = bid_id s ∧ x ∈ bids s ∧ x ∈ bids (step s e) ∧ bid_id (step s e) ≠ x) ∨
   (x = ask_id s ∧ x ∈ asks s ∧ x ∈ asks (step s e) ∧ ask_id (step s e) ≠ x)).
Proof.
  intros Hreach. destruct (reachable_consistent s Hreach) as [Hc Hbi Hai Hd Hbt Hat].
  by_event e s ltac:(other_event; try done).
  book_event s; intros Hin; each_command Hin.
  all: injection Hin as <-; split; [done|].
  all: first
    [ left; pose proof (Hbt ltac:(done)) as Hin; pose proof (Hbi _ Hin);
      repeat split; first [done | lia | by apply elem_of_union_l]
    | right; pose proof (Hat ltac:(done)) as Hin; pose proof (Hai _ Hin);
      repeat split; first [done | lia | by apply elem_of_union_l] ].
Qed.

Lemma X5_cancels_target_resting_orders_witness :
  reachable (run init [book 9900 10100; OrderFilledMessage 1 9900 5]) ∧
  In (send_cancel_order 2)
     (output_of (dispatch (book 9950 10050)
                   (run init [book 9900 10100; OrderFilledMessage 1 9900 5]))) ∧
  2 ≠ 0.
Proof.
  assert (Hr : reachable (run init [book 9900 10100; OrderFilledMessage 1 9900 5]))
    by (apply reachable_run, reachable_init).
  assert (Hin : In (send_cancel_order 2)
                   (output_of (dispatch (book 9950 10050)
                      (run init [book 9900 10100; OrderFilledMessage 1 9900 5]))))
    by (vm_compute; tauto).
  split; [exact Hr|]. split; [exact Hin|].
  exact (proj1 (X5_cancels_target_resting_orders _ (book 9950 10050) 2 Hr Hin)).
Defined.

Lemma step_insert_ids (s : state) (e : event) :
  order_ids s ≤ order_ids (step s e) ∧
  insert_ids (output_of (dispatch e s))
    = seqZ (order_ids s) (order_ids (step s e) - order_ids s).
Proof.
  assert (Hquiet : ∀ r : outcome unit,
    output_of r = [] → order_ids (state_of r) = order_ids s →
    order_ids s ≤ order_ids (state_of r) ∧
    insert_ids (output_of r) = seqZ (order_ids s) (order_ids (state_of r) - order_ids s)).
  { intros r -> ->. split; [lia|]. by rewrite seqZ_nil by lia. }
  by_event e s ltac:(apply Hquiet; other_event; done).
  clear Hquiet.
  book_event s; (split; [lia|]); unfold insert_ids; simpl.
  all: repeat (rewrite seqZ_cons by lia); rewrite seqZ_nil by lia; repeat f_equal; lia.
Qed.

(** X6: one callback sends at most one buy insert, at most one sell
    insert and at most two cancels; the ids of the inserts it sends are
    pairwise distinct, so no id is used for two inserts within a
    callback; and in a reachable state it never sends the same command
    twice, so no order is cancelled twice. *)
Theorem X6_command_budget (s : state) (e : event) :
  NoDup (insert_ids (output_of (dispatch e s))) ∧
  (length (List.filter (inserts_on BUY) (output_of (dispatch e s))) ≤ 1)%nat ∧
  (length (List.filter (inserts_on SELL) (output_of (dispatch e s))) ≤ 1)%nat ∧
  (length (List.filter cancels (output_of (dispatch e s))) ≤ 2)%nat ∧
  (reachable s → NoDup (output_of (dispatch e s))).
Proof.
  split.
  { rewrite (proj2 (step_insert_ids s e)). apply NoDup_seqZ. }
  assert (Hsmall : ∀ out : list command,
    out = [] →
    (length (List.filter (inserts_on BUY) out) ≤ 1)%nat ∧
    (length (List.filter (inserts_on SELL) out) ≤ 1)%nat ∧
    (length (List.filter cancels out) ≤ 2)%nat ∧ (reachable s → NoDup out)).
  { intros out ->. simpl. repeat split; try lia. intros _. constructor. }
  by_event e s ltac:(apply Hsmall; other_event; done).
  clear Hsmall.
  assert (Hslots : reachable s → bid_id s ≠ 0 → bid_id s ≠ ask_id s).
  { intros Hreach Hb Heq. destruct (reachable_consistent s Hreach) as [Hc Hbi Hai Hd Hbt Hat].
    apply (Hd (bid_id s)); [by apply Hbt|]. rewrite Heq. apply Hat. congruence. }
  book_event s; (split; [simpl; lia|]); (split; [simpl; lia|]); (split; [simpl; lia|]).
  all: intros Hreach;
    repeat (constructor;
      [ let Hin := fresh "Hin" in
        intros Hin; apply list_elem_of_In in Hin; simpl in Hin;
        repeat (destruct Hin as [Hin|Hin]; [try discriminate Hin|]); try done;
        injection Hin as Hin;
        first [lia | by apply (Hslots Hreach) | by symmetry in Hin; apply (Hslots Hreach)]
      | ]).
  all: constructor.
Qed.

Lemma X6_command_budget_witness :
  reachable (run init [book 9900 10100; OrderFilledMessage 1 9900 5]) ∧
  NoDup (output_of (dispatch (book 9950 10050)
                      (run init [book 9900 10100; OrderFilledMessage 1 9900 5]))).
Proof.
  assert (Hr : reachable (run init [book 9900 10100; OrderFilledMessage 1 9900 5]))
    by (apply reachable_run, reachable_init).
  split; [exact Hr|].
  exact (proj2 (proj2 (proj2 (proj2 (X6_command_budget _ (book 9950 10050))))) Hr).
Defined.

(** ** Order ids *)

(** X7: over any sequence of notifications the ids of the inserts sent,
    in sending order, are the consecutive integers from the counter's
    starting value up to its final value: no id is skipped, none is used
    twice, and each insert's id is larger than every earlier one: the
    k-th insert sent carries the starting value plus k - 1 (so id k
    from the initial state, whose counter starts at 1). *)
Theorem X7_insert_ids_are_consecutive (s : state) (es : list event) :
  order_ids s ≤ order_ids (run s es) ∧
  insert_ids (history s es) = seqZ (order_ids s) (order_ids (run s es) - order_ids s) ∧
  insert_ids (history s es)
    = seqZ (order_ids s) (Z.of_nat (length (insert_ids (history s es)))).
Proof.
  assert (Hgen : ∀ es s,
    order_ids s ≤ order_ids (run s es) ∧
    insert_ids (history s es) = seqZ (order_ids s) (order_ids (run s es) - order_ids s)).
  { clear. induction es as [|e es IH]; intros s; simpl.
    - split; [lia|]. by rewrite seqZ_nil by lia.
    - destruct (step_insert_ids s e) as [Hle Hout].
      destruct (IH (step s e)) as [Hle' Hrest].
      split; [lia|].
      unfold insert_ids in *. rewrite omap_app, Hout, Hrest.
      replace (order_ids (run (step s e) es) - order_ids s)
        with ((order_ids (step s e) - order_ids s)
              + (order_ids (run (step s e) es) - order_ids (step s e))) by lia.
      rewrite seqZ_app by lia. do 2 f_equal. lia. }
  destruct (Hgen es s) as [Hle Hids]. split; [done|]. split; [done|].
  rewrite Hids at 2. rewrite length_seqZ, Z2Nat.id by lia. exact Hids.
Qed.

(** ** One working order per side *)

Ltac side_cases Hx Hne Hold Htr Hiss x slot :=
  simpl in Hne; set_unfold in Hx;
  pose proof (Hiss x) as Hrange; pose proof (Hold x) as Hsent;
  apply in_or_app; simpl;
  destruct (decide (x = slot)) as [->|?];
  intuition (first [done | lia | congruence]).

Lemma cancels_sent_step (s : state) (e : event) (h : list command) :
  consistent s → cancels_sent s h →
  cancels_sent (step s e) (h ++ output_of (dispatch e s)).
Proof.
  intros [Hc Hbi Hai Hd Hbt Hat] [Hb Ha].
  by_event e s ltac:(other_event;
    (split; intros x Hx Hne;
       [ side_cases Hx Hne Hb Hbt Hbi x (bid_id s)
       | side_cases Hx Hne Ha Hat Hai x (ask_id s) ])).
  book_event s;
    (split; intros x Hx Hne;
       [ side_cases Hx Hne Hb Hbt Hbi x (bid_id s)
       | side_cases Hx Hne Ha Hat Hai x (ask_id s) ]).
Qed.

Lemma cancels_sent_run (es : list event) (s : state) (h : list command) :
  consistent s → cancels_sent s h → cancels_sent (run s es) (h ++ history s es).
Proof.
  revert s h. induction es as [|e es IH]; intros s h Hcons Hsent; simpl.
  - by rewrite app_nil_r.
  - rewrite app_assoc. apply IH; [by apply consistent_step | by apply cancels_sent_step].
Qed.

(** X8: at any point of any run from the initial state, every tracked
    buy id other than the one in the bid slot has already had a cancel
    sent for it, and likewise for sell ids and the ask slot: the
    strategy never has two of its own orders working on one side
    without having asked to cancel all but the latest. *)
Theorem X8_one_working_order_per_side (es : list event) (x : Z) :
  (x ∈ bids (run init es) → x ≠ bid_id (run init es) →
     In (send_cancel_order x) (history init es)) ∧
  (x ∈ asks (run init es) → x ≠ ask_id (run init es) →
     In (send_cancel_order x) (history init es)).
Proof.
  assert (Hinit : cancels_sent init []).
  { split; intros y Hy; simpl in Hy; by apply not_elem_of_empty in Hy. }
  destruct (cancels_sent_run es init [] consistent_init Hinit) as [Hb Ha].
  simpl in Hb, Ha. split; [apply Hb | apply Ha].
Qed.

Lemma X8_one_working_order_per_side_witness :
  2 ∈ asks (run init [book 9900 10100; OrderFilledMessage 1 9900 5; book 9950 10050]) ∧
  2 ≠ ask_id (run init [book 9900 10100; OrderFilledMessage 1 9900 5; book 9950 10050]) ∧
  In (send_cancel_order 2)
     (history init [book 9900 10100; OrderFilledMessage 1 9900 5; book 9950 10050]).
Proof.
  assert (Hin : 2 ∈ asks (run init [book 9900 10100; OrderFilledMessage 1 9900 5;
                                    book 9950 10050]))
    by (apply (bool_decide_unpack _); vm_compute; exact I).
  assert (Hne : 2 ≠ ask_id (run init [book 9900 10100; OrderFilledMessage 1 9900 5;
                                      book 9950 10050]))
    by (vm_compute; discriminate).
  split; [exact Hin|]. split; [exact Hne|].
  exact (proj2 (X8_one_working_order_per_side
                  [book 9900 10100; OrderFilledMessage 1 9900 5; book 9950 10050] 2) Hin Hne).
Defined.

(** ** Re-quoting *)

Lemma phases_twice (nb na : Z) (s : state) :
  1 ≤ order_ids s →
  phases nb na (state_of (phases nb na s)) = Returned tt (state_of (phases nb na s)) [].
Proof. intros Hc. unfold phases. split_pruning; done. Qed.

(** X9: in a reachable state an order-book update is idempotent:
    handling a second update of the tracked instrument with the same
    best bid and best ask (whatever its sequence number, volumes and
    deeper levels) right after the first sends nothing and leaves the
    state exactly as the first left it. *)
Theorem X9_repeated_update_is_silent (s : state) (n n' best_bid best_ask : Z)
    (ap ap' av av' bp bp' bv bv' : list Z) :
  reachable s →
  dispatch (OrderBookUpdateMessage FUTURE n' (best_ask :: ap') av' (best_bid :: bp') bv')
           (step s (OrderBookUpdateMessage FUTURE n (best_ask :: ap) av (best_bid :: bp) bv))
  = Returned tt
      (step s (OrderBookUpdateMessage FUTURE n (best_ask :: ap) av (best_bid :: bp) bv)) [].
Proof.
  intros Hreach. pose proof (counter_positive s (reachable_consistent s Hreach)) as Hc.
  unfold step, dispatch. rewrite !book_update_tracked.
  fold (phases (new_prices (position s) best_bid best_ask).1
               (new_prices (position s) best_bid best_ask).2).
  rewrite (proj1 (phases_frame _ _ s)). by apply phases_twice.
Qed.

Lemma X9_repeated_update_is_silent_witness :
  reachable (run init [book 9900 10100; OrderFilledMessage 1 9900 5]) ∧
  output_of (dispatch (OrderBookUpdateMessage FUTURE 8 [10050; 10060] [3; 4] [9950] [7])
               (step (run init [book 9900 10100; OrderFilledMessage 1 9900 5])
                     (book 9950 10050))) = [].
Proof.
  assert (Hr : reachable (run init [book 9900 10100; OrderFilledMessage 1 9900 5]))
    by (apply reachable_run, reachable_init).
  split; [exact Hr|].
  exact (f_equal output_of
           (X9_repeated_update_is_silent _ 1 8 9950 10050 [] [10060] [1] [3; 4] [] [] [1] [7] Hr)).
Defined.

Ltac no_insert :=
  let Hin := fresh "Hin" in
  intros (?c & Hin & (? & ? & ? & ? & ->)); simpl in Hin;
  repeat (destruct Hin as [Hin|Hin]; [try discriminate Hin|]); done.

Ltac no_cancel :=
  let Hin := fresh "Hin" in
  intros Hin; simpl in Hin;
  repeat (destruct Hin as [Hin|Hin]; [try discriminate Hin|]); try done;
  injection Hin as Hin; congruence.

(** X10: when the computed bid price is the sentinel 0 (for instance a
    flat position with best bid 0), an order-book update sends no buy
    insert, leaves the bid slot empty and the outstanding buys
    untouched, and cancels the resting bid if there was one; the same
    holds for the ask side when the computed ask price is 0. *)
Theorem X10_zero_price_withdraws_quote (s : state) (n best_bid best_ask : Z)
    (ap av bp bv : list Z) :
  let new_bid := (new_prices (position s) best_bid best_ask).1 in
  let new_ask := (new_prices (position s) best_bid best_ask).2 in
  let e := OrderBookUpdateMessage FUTURE n (best_ask :: ap) av (best_bid :: bp) bv in
  (position s = 0 → best_bid = 0 → new_bid = 0) ∧
  (position s = 0 → best_ask = 0 → new_ask = 0) ∧
  (new_bid = 0 →
     bid_id (step s e) = 0 ∧ bids (step s e) = bids s ∧
     (¬ ∃ c, In c (output_of (dispatch e s)) ∧ is_insert BUY c) ∧
     (bid_id s ≠ 0 → In (send_cancel_order (bid_id s)) (output_of (dispatch e s)))) ∧
  (new_ask = 0 →
     ask_id (step s e) = 0 ∧ asks (step s e) = asks s ∧
     (¬ ∃ c, In c (output_of (dispatch e s)) ∧ is_insert SELL c) ∧
     (ask_id s ≠ 0 → In (send_cancel_order (ask_id s)) (output_of (dispatch e s)))).
Proof.
  intros new_bid new_ask e. subst e.
  split; [|split].
  - subst new_bid. unfold new_prices. intros -> ->. by repeat case_decide.
  - subst new_ask. unfold new_prices. intros -> ->. by repeat case_decide.
  - unfold step, dispatch. rewrite book_update_tracked.
    fold new_bid new_ask. clearbody new_bid new_ask. unfold is_insert. split.
    + intros ->. split_pruning; repeat split; first [done | no_insert | intros; simpl; tauto].
    + intros ->. split_pruning; repeat split; first [done | no_insert | intros; simpl; tauto].
Qed.

Lemma X10_zero_price_withdraws_quote_witness :
  (new_prices (position init) 0 10100).1 = 0 ∧
  bid_id (step init (OrderBookUpdateMessage FUTURE 1 [10100] [5] [0] [0])) = 0.
Proof.
  assert (H : (new_prices (position init) 0 10100).1 = 0) by reflexivity.
  split; [exact H|].
  exact (proj1 (proj1 (proj2 (proj2
    (X10_zero_price_withdraws_quote init 1 0 10100 [] [5] [] [0]))) H)).
Defined.

(** X11: a resting bid whose recorded price equals the new nonzero bid
    price is left alone by an order-book update: the bid slot, its
    recorded price and the outstanding buys are unchanged, no buy insert
    is sent and (the two slots holding different ids) no cancel for it
    is sent.  The same holds for a resting ask. *)
Theorem X11_unchanged_quote_is_kept (s : state) (n best_bid best_ask : Z)
    (ap av bp bv : list Z) :
  let new_bid := (new_prices (position s) best_bid best_ask).1 in
  let new_ask := (new_prices (position s) best_bid best_ask).2 in
  let e := OrderBookUpdateMessage FUTURE n (best_ask :: ap) av (best_bid :: bp) bv in
  (bid_id s ≠ 0 → new_bid = bid_price s → new_bid ≠ 0 →
     bid_id (step s e) = bid_id s ∧ bid_price (step s e) = bid_price s ∧
     bids (step s e) = bids s ∧
     (¬ ∃ c, In c (output_of (dispatch e s)) ∧ is_insert BUY c) ∧
     (bid_id s ≠ ask_id s → ¬ In (send_cancel_order (bid_id s)) (output_of (dispatch e s)))) ∧
  (ask_id s ≠ 0 → new_ask = ask_price s → new_ask ≠ 0 →
     ask_id (step s e) = ask_id s ∧ ask_price (step s e) = ask_price s ∧
     asks (step s e) = asks s ∧
     (¬ ∃ c, In c (output_of (dispatch e s)) ∧ is_insert SELL c) ∧
     (bid_id s ≠ ask_id s → ¬ In (send_cancel_order (ask_id s)) (output_of (dispatch e s)))).
Proof.
  intros new_bid new_ask e. subst e.
  unfold step, dispatch. rewrite book_update_tracked.
  fold new_bid new_ask. clearbody new_bid new_ask. unfold is_insert. split.
  - intros Hid Hp Hnz. split_pruning;
      repeat split; first [done | no_insert | intros ?; no_cancel].
  - intros Hid Hp Hnz. split_pruning;
      repeat split; first [done | no_insert | intros ?; no_cancel].
Qed.

Lemma X11_unchanged_quote_is_kept_witness :
  bid_id (step init (book 9900 10100)) ≠ 0 ∧
  (new_prices (position (step init (book 9900 10100))) 9900 10200).1
    = bid_price (step init (book 9900 10100)) ∧
  (new_prices (position (step init (book 9900 10100))) 9900 10200).1 ≠ 0 ∧
  bid_id (step (step init (book 9900 10100)) (book 9900 10200))
    = bid_id (step init (book 9900 10100)).
Proof.
  assert (H1 : bid_id (step init (book 9900 10100)) ≠ 0) by (vm_compute; discriminate).
  assert (H2 : (new_prices (position (step init (book 9900 10100))) 9900 10200).1
               = bid_price (step init (book 9900 10100))) by (vm_compute; reflexivity).
  assert (H3 : (new_prices (position (step init (book 9900 10100))) 9900 10200).1 ≠ 0)
    by (vm_compute; discriminate).
  split; [exact H1|]. split; [exact H2|]. split; [exact H3|].
  exact (proj1 (proj1 (X11_unchanged_quote_is_kept (step init (book 9900 10100))
                         1 9900 10200 [] [1] [] [1]) H1 H2 H3)).
Defined.

(** ** Slots, prices and the counter *)

Lemma priced_init : priced init.
Proof. by split. Qed.

Lemma priced_step (s : state) (e : event) : priced s → priced (step s e).
Proof.
  intros [Hb Ha].
  by_event e s ltac:(other_event; split; simpl; intros; first [done | tauto]).
  book_event s; split; simpl; intros; first [done | tauto].
Qed.

Lemma reachable_priced (s : state) : reachable s → priced s.
Proof. induction 1; [apply priced_init | by apply priced_step]. Qed.

(** X12: in every reachable state a nonzero bid slot has a nonzero
    recorded price, holds an id between 1 and the counter (excluded),
    and differs from the ask slot; likewise for a nonzero ask slot; and
    every tracked id lies between 1 and the counter (excluded), so id 0
    and ids not yet issued are never tracked. *)
Theorem X12_slots_prices_counter (s : state) :
  reachable s →
  (bid_id s ≠ 0 → bid_price s ≠ 0 ∧ 1 ≤ bid_id s < order_ids s ∧ bid_id s ≠ ask_id s) ∧
  (ask_id s ≠ 0 → ask_price s ≠ 0 ∧ 1 ≤ ask_id s < order_ids s ∧ ask_id s ≠ bid_id s) ∧
  (∀ x, x ∈ bids s ∨ x ∈ asks s → 1 ≤ x < order_ids s).
Proof.
  intros Hreach.
  destruct (reachable_consistent s Hreach) as [Hc Hbi Hai Hd Hbt Hat].
  destruct (reachable_priced s Hreach) as [Hbp Hap].
  split; [|split].
  - intros Hnz. split; [by apply Hbp|]. split; [by apply Hbi, Hbt|].
    intros Heq. apply (Hd (bid_id s)); [by apply Hbt|].
    rewrite Heq. apply Hat. congruence.
  - intros Hnz. split; [by apply Hap|]. split; [by apply Hai, Hat|].
    intros Heq. apply (Hd (bid_id s)); [apply Hbt; congruence|].
    rewrite <- Heq. by apply Hat.
  - intros x [Hx|Hx]; [by apply Hbi | by apply Hai].
Qed.

Lemma X12_slots_prices_counter_witness :
  reachable (run init ninth_fill) ∧ bid_id (run init ninth_fill) ≠ 0 ∧
  bid_price (run init ninth_fill) ≠ 0.
Proof.
  assert (Hr : reachable (run init ninth_fill)) by (apply reachable_run, reachable_init).
  assert (Hb : bid_id (run init ninth_fill) ≠ 0) by (vm_compute; discriminate).
  split; [exact Hr|]. split; [exact Hb|].
  exact (proj1 (proj1 (X12_slots_prices_counter _ Hr) Hb)).
Defined.

(** ** When an id stops being tracked *)

(** X13: an id leaves the outstanding buys (or sells) only through a
    terminal status for that id, or through an error for that id that
    the handler processes to the end; order-book updates (and the
    cancels they send), fills, hedge fills and trade ticks never
    untrack an id. *)
Theorem X13_untracked_only_by_status_or_error (s : state) (e : event) (x : Z) :
  (x ∈ bids s ∧ x ∉ bids (step s e)) ∨ (x ∈ asks s ∧ x ∉ asks (step s e)) →
  (∃ f fees, e = OrderStatusMessage x f 0 fees) ∨
  (∃ msg, e = ErrorMessage x msg ∧ x ≠ 0 ∧ returns (dispatch e s)).
Proof.
  by_event e s ltac:(other_event; intros Hx; set_unfold in Hx;
    first [ exfalso; tauto
          | assert (x = id) as -> by (destruct (decide (x = id)); [done | exfalso; tauto]);
            first [ left; subst; by eexists _, _ | right; eexists; by repeat split ] ]).
  unfold step, dispatch. rewrite book_update_tracked.
  destruct (phases_frame (new_prices (position s) b a).1
                         (new_prices (position s) b a).2 s) as (_ & Hb & Ha).
  unfold phases in Hb, Ha. intros [[Hin Hout]|[Hin Hout]]; exfalso; apply Hout; set_solver.
Qed.

Lemma X13_untracked_only_by_status_or_error_witness :
  ((1 ∈ bids (step init (book 9900 10100)) ∧
    1 ∉ bids (step (step init (book 9900 10100)) (OrderStatusMessage 1 10 0 0))) ∨
   (1 ∈ asks (step init (book 9900 10100)) ∧
    1 ∉ asks (step (step init (book 9900 10100)) (OrderStatusMessage 1 10 0 0)))) ∧
  ((∃ f fees, OrderStatusMessage 1 10 0 0 = OrderStatusMessage 1 f 0 fees) ∨
   (∃ msg, OrderStatusMessage 1 10 0 0 = ErrorMessage 1 msg ∧ 1 ≠ 0 ∧
           returns (dispatch (OrderStatusMessage 1 10 0 0) (step init (book 9900 10100))))).
Proof.
  assert (H : (1 ∈ bids (step init (book 9900 10100)) ∧
               1 ∉ bids (step (step init (book 9900 10100)) (OrderStatusMessage 1 10 0 0))) ∨
              (1 ∈ asks (step init (book 9900 10100)) ∧
               1 ∉ asks (step (step init (book 9900 10100)) (OrderStatusMessage 1 10 0 0)))).
  { left. split; apply (bool_decide_unpack _); vm_compute; exact I. }
  split; [exact H|].
  exact (X13_untracked_only_by_status_or_error (step init (book 9900 10100))
           (OrderStatusMessage 1 10 0 0) 1 H).
Defined.

(** ** Order life cycle *)

Lemma insert_grows (s : state) (e : event) (id : Z) (side : Side) (p v : Z) (l : Lifespan) :
  In (send_insert_order id side p v l) (output_of (dispatch e s)) →
  order_ids s ≤ id ∧ position (step s e) = position s ∧
  match side with
  | BUY => bid_id (step s e) = id ∧ bids (step s e) = bids s ∪ {[id]}
  | SELL => ask_id (step s e) = id ∧ asks (step s e) = asks s ∪ {[id]}
  end.
Proof.
  by_event e s ltac:(other_event; try done).
  book_event s; intros Hin; each_command Hin.
  all: injection Hin as <- <- <- <- <-; repeat split; first [done | lia].
Qed.

Lemma status_terminal_fields (s : state) (id f fees : Z) :
  bids (step s (OrderStatusMessage id f 0 fees)) = bids s ∖ {[id]} ∧
  asks (step s (OrderStatusMessage id f 0 fees)) = asks s ∖ {[id]} ∧
  position (step s (OrderStatusMessage id f 0 fees)) = position s ∧
  (id = bid_id s → bid_id (step s (OrderStatusMessage id f 0 fees)) = 0) ∧
  (id ≠ bid_id s → id = ask_id s → ask_id (step s (OrderStatusMessage id f 0 fees)) = 0).
Proof. other_event; repeat split; intros; first [done | congruence]. Qed.

Lemma fresh_roundtrip (X : gset Z) (c : Z) : c ∉ X → (X ∪ {[c]}) ∖ {[c]} = X.
Proof. set_solver. Qed.

(** X14: placing an order and then receiving its terminal status is a
    round trip on the bookkeeping: in a reachable state, once a callback
    has sent an insert, a terminal status for that id empties the slot
    of its side and returns the outstanding set of its side to what it
    was before the insert, with the position unchanged. *)
Theorem X14_insert_then_terminal_status (s : state) (e : event)
    (id : Z) (side : Side) (p v : Z) (l : Lifespan) (f fees : Z) :
  reachable s →
  In (send_insert_order id side p v l) (output_of (dispatch e s)) →
  position (step (step s e) (OrderStatusMessage id f 0 fees)) = position s ∧
  match side with
  | BUY => (id ∉ bids s) ∧
           bid_id (step (step s e) (OrderStatusMessage id f 0 fees)) = 0 ∧
           bids (step (step s e) (OrderStatusMessage id f 0 fees)) = bids s
  | SELL => (id ∉ asks s) ∧
            ask_id (step (step s e) (OrderStatusMessage id f 0 fees)) = 0 ∧
            asks (step (step s e) (OrderStatusMessage id f 0 fees)) = asks s
  end.
Proof.
  intros Hreach Hin.
  destruct (reachable_consistent s Hreach) as [Hc Hbi Hai Hd Hbt Hat].
  destruct (insert_grows s e id side p v l Hin) as (Hge & Hpos & Hside).
  destruct (status_terminal_fields (step s e) id f fees) as (Hb & Ha & Hp & Hbid & Haid).
  split; [congruence|].
  pose proof (consistent_step s e (Build_consistent _ Hc Hbi Hai Hd Hbt Hat)) as Hcons'.
  destruct side; destruct Hside as [Hslot Hset].
  - assert (Hfresh : id ∉ asks s) by (intros Hx; apply Hai in Hx; lia).
    split; [done|]. split.
    + apply Haid; [|done]. intros Heq.
      assert (Hnz : id ≠ 0) by lia.
      apply (sides_disjoint _ Hcons' id).
      * rewrite Heq. apply (bid_tracked _ Hcons'). congruence.
      * rewrite <- Hslot at 1. apply (ask_tracked _ Hcons'). congruence.
    + rewrite Ha, Hset. by apply fresh_roundtrip.
  - assert (Hfresh : id ∉ bids s) by (intros Hx; apply Hbi in Hx; lia).
    split; [done|]. split; [by apply Hbid|].
    rewrite Hb, Hset. by apply fresh_roundtrip.
Qed.

Lemma X14_insert_then_terminal_status_witness :
  reachable init ∧
  In (send_insert_order 1 BUY 9900 10 GOOD_FOR_DAY)
     (output_of (dispatch (book 9900 10100) init)) ∧
  bids (step (step init (book 9900 10100)) (OrderStatusMessage 1 10 0 0)) = bids init.
Proof.
  assert (Hin : In (send_insert_order 1 BUY 9900 10 GOOD_FOR_DAY)
                   (output_of (dispatch (book 9900 10100) init)))
    by (vm_compute; tauto).
  split; [exact reachable_init|]. split; [exact Hin|].
  exact (proj2 (proj2 (proj2
    (X14_insert_then_terminal_status init (book 9900 10100) 1 BUY 9900 10 GOOD_FOR_DAY
       10 0 reachable_init Hin)))).
Defined.

(** ** Edges of the quoting rule *)

(** X15: the quotes are not clamped to positive prices: with a long
    position below the cap, an empty bid slot, and best bid plus best
    ask below 20 (for instance a book whose top levels are both 0), the
    computed bid is negative and a buy insert at that negative price is
    sent. *)
Theorem X15_negative_bid_is_sent (s : state) (n best_bid best_ask : Z)
    (ap av bp bv : list Z) :
  0 < position s → position s + LOT_SIZE < POSITION_LIMIT →
  best_bid + best_ask < 20 → bid_id s = 0 →
  mid_price best_bid best_ask - 10 < 0 ∧
  In (send_insert_order (order_ids s) BUY (mid_price best_bid best_ask - 10)
        LOT_SIZE GOOD_FOR_DAY)
     (output_of (on_order_book_update_message FUTURE n (best_ask :: ap) av
                   (best_bid :: bp) bv s)).
Proof.
  intros Hpos Hcap Hsum Hslot.
  assert (Hmid : mid_price best_bid best_ask - 10 < 0).
  { unfold mid_price.
    assert ((best_bid + best_ask) / 2 < 10); [|lia].
    apply Z.div_lt_upper_bound; lia. }
  split; [done|].
  rewrite book_update_tracked.
  assert (Hq : new_prices (position s) best_bid best_ask
               = (mid_price best_bid best_ask - 10, mid_price best_bid best_ask)).
  { unfold new_prices. case_decide; [done | lia]. }
  rewrite Hq. simpl fst. simpl snd.
  generalize dependent (mid_price best_bid best_ask). intros m Hm Hq.
  split_pruning; simpl; tauto.
Qed.

Lemma X15_negative_bid_is_sent_witness :
  0 < position (run init [book 9900 10100; OrderFilledMessage 1 9900 10;
                          OrderStatusMessage 1 10 0 0]) ∧
  In (send_insert_order 3 BUY (-10) 10 GOOD_FOR_DAY)
     (output_of (on_order_book_update_message FUTURE 7 [0] [0] [0] [0]
                   (run init [book 9900 10100; OrderFilledMessage 1 9900 10;
                              OrderStatusMessage 1 10 0 0]))).
Proof.
  assert (H1 : 0 < position (run init [book 9900 10100; OrderFilledMessage 1 9900 10;
                                       OrderStatusMessage 1 10 0 0]))
    by (vm_compute; reflexivity).
  assert (H2 : position (run init [book 9900 10100; OrderFilledMessage 1 9900 10;
                                   OrderStatusMessage 1 10 0 0]) + LOT_SIZE < POSITION_LIMIT)
    by (vm_compute; reflexivity).
  assert (H3 : 0 + 0 < 20) by lia.
  assert (H4 : bid_id (run init [book 9900 10100; OrderFilledMessage 1 9900 10;
                                 OrderStatusMessage 1 10 0 0]) = 0)
    by (vm_compute; reflexivity).
  split; [exact H1|].
  exact (proj2 (X15_negative_bid_is_sent _ 7 0 0 [] [0] [] [0] H1 H2 H3 H4)).
Defined.

(** ** Error messages *)

Lemma ascii_well_formed (bs : list N) :
  Forall (λ b, (b <= 127)%N) bs → utf8_well_formed bs = true.
Proof.
  induction 1 as [|b bs Hb _ IH]; [done|].
  simpl. by rewrite (proj2 (N.leb_le b 127) Hb).
Qed.

(** X16: [on_error_message] runs to completion on every message made
    of ASCII bytes only (every byte at most 127), for any order id and
    in any state, and then does what a terminal status for that id does
    when the id is nonzero and tracked, and nothing otherwise. *)
Theorem X16_ascii_error_is_processed (s : state) (id : Z) (msg : list byte) :
  Forall (λ c, (Byte.to_N c <= 127)%N) msg →
  returns (on_error_message id msg s) ∧
  (id ≠ 0 → (id ∈ bids s ∨ id ∈ asks s) →
     on_error_message id msg s = on_order_status_message id 0 0 0 s) ∧
  (id = 0 ∨ ((id ∉ bids s) ∧ (id ∉ asks s)) → on_error_message id msg s = Returned tt s []).
Proof.
  intros Hascii.
  assert (Hwf : utf8_well_formed (map Byte.to_N msg) = true).
  { apply ascii_well_formed. by apply Forall_map. }
  unfold on_error_message, decode. rewrite Hwf. split; [|split].
  - unfold on_order_status_message. unfold_M. split_cases; exact I.
  - intros Hnz Htracked. unfold bind at 1 2, get, ret. split_cases; try tauto;
      by destruct (on_order_status_message id 0 0 0 s).
  - intros Hcase. unfold bind at 1 2, get, ret.
    split_cases; first [done | exfalso; tauto].
Qed.

Lemma X16_ascii_error_is_processed_witness :
  Forall (λ c, (Byte.to_N c <= 127)%N) [x6e; x6f] ∧
  returns (on_error_message 1 [x6e; x6f] (step init (book 9900 10100))).
Proof.
  assert (H : Forall (λ c, (Byte.to_N c <= 127)%N) [x6e; x6f]).
  { repeat constructor; vm_compute; discriminate. }
  split; [exact H|].
  exact (proj1 (X16_ascii_error_is_processed (step init (book 9900 10100)) 1 [x6e; x6f] H)).
Defined.
